(** * wltdo-bot: the farewell bot of [bot.py]

    A shallow embedding of [bot.py]: the two command callbacks, the
    departure callback and the start-up code, over an explicit trace of the
    actions the program performs (log records, calls of the bot API, calls of
    the framework), followed by the properties of the specification. *)

From Stdlib Require Import ZArith List String Ascii Bool Lia DecimalString.
Import ListNotations.

Local Open Scope string_scope.
Local Open Scope Z_scope.

(** ** Python values *)

Module Py.

(** The line feed of the source's ["\n"]. *)
Definition nl : string := String (ascii_of_nat 10) EmptyString.

(** [str(n)] for an [int]: the decimal numeral, with ["-"] when negative. *)
Definition str_int (n : Z) : string := NilZero.string_of_int (Z.to_int n).

(** [f"{x}"] for an attribute that is a [str] or [None]. *)
Definition str_opt (x : option string) : string :=
  match x with
  | Some s => s
  | None => "None"
  end.

(** Truth value of a [str] or [None]: [None] and [""] are false. *)
Definition truthy (x : option string) : bool :=
  match x with
  | Some EmptyString => false
  | Some _ => true
  | None => false
  end.

(** Exception classes, as far as the program tells them apart:
    [except Exception] catches the subclasses of [Exception] and lets the
    other [BaseException]s through (task cancellation, interpreter exit). *)
Inductive exc_class : Type :=
| ValueError
| AttributeError
| ExceptionSubclass (name : string)
| BaseExceptionOnly (name : string).

(** A raised exception: its class and [str(e)]. *)
Record exn : Type := mkExn { exc_type : exc_class; exc_str : string }.

(** [isinstance(e, Exception)]. *)
Definition is_Exception (e : exn) : bool :=
  match exc_type e with
  | BaseExceptionOnly _ => false
  | _ => true
  end.

End Py.

(** ** The objects of the bot framework

    Only the attributes [bot.py] reads. [full_name] and [effective_chat] are
    properties the framework computes from the fields. *)

Module User.
Record t : Type := mk
  { id : Z; first_name : string; last_name : option string }.

(** First name, followed by a space and the last name when there is one. *)
Definition full_name (u : t) : string :=
  if Py.truthy (last_name u)
  then first_name u ++ " " ++ Py.str_opt (last_name u)
  else first_name u.
End User.

Module Chat.
Record t : Type := mk { id : Z; title : option string }.
End Chat.

Module Message.
Record t : Type := mk
  { chat : Chat.t; left_chat_member : option User.t }.
End Message.

Module Update.
(** [message] is [None] for the updates that carry something else
    (an edited message, a channel post, a callback query, ...). *)
Record t : Type := mk { message : option Message.t }.

(** For an update with a message, the chat of that message. The other
    kinds of update are not told apart here: the callbacks read this
    property only next to [message]. *)
Definition effective_chat (u : t) : option Chat.t :=
  option_map Message.chat (message u).
End Update.

Module Bot.
Record t : Type := mk { id : Z }.
End Bot.

Module Context.
Record t : Type := mk { bot : Bot.t }.
End Context.

(** ** Actions and the monad of the callbacks *)

Inductive level : Type := INFO | ERROR.

(** The handlers [main] registers. *)
Inductive handler : Type :=
| CommandHandler (command : string) (callback : string)
| MessageHandler_LEFT_CHAT_MEMBER (callback : string).

(** What the program does to the outside, in the order it does it. *)
Inductive event : Type :=
| BasicConfig
| LogRecord (lvl : level) (msg : string)
| SendMessage (chat_id : Z) (text : string)
| BuildApplication (token : string)
| AddHandler (h : handler)
| RunWebhook (listen : string) (port : Z) (url_path webhook_url : string)
| RunPolling.

(** What the program reads from the outside: the process environment, the
    clock ([str(datetime.now())]) and, for a send, whether the platform
    accepts it ([None]) or the call raises. *)
Record World : Type := mkWorld
  { environ : string -> option string;
    now : string;
    send_raises : Z -> string -> option Py.exn }.

Inductive outcome (A : Type) : Type :=
| Returned (a : A)
| Raised (e : Py.exn).
Arguments Returned {A} a.
Arguments Raised {A} e.

(** A computation reads the world, performs a trace of actions and returns
    or raises. *)
Definition M (A : Type) : Type := World -> list event * outcome A.

Definition ret {A} (a : A) : M A := fun _ => ([], Returned a).

Definition bind {A B} (m : M A) (f : A -> M B) : M B :=
  fun w =>
    match m w with
    | (t, Returned a) => let (t', r) := f a w in ((t ++ t')%list, r)
    | (t, Raised e) => (t, Raised e)
    end.

Notation "x <- m ;; k" := (bind m (fun x => k))
  (at level 61, m at next level, right associativity).
Notation "m ;; k" := (bind m (fun _ => k))
  (at level 61, right associativity).

Definition raise {A} (e : Py.exn) : M A := fun _ => ([], Raised e).

Definition emit (ev : event) : M unit := fun _ => ([ev], Returned tt).

(** [try: body except Exception as e: h e]. *)
Definition try_except_Exception {A} (body : M A) (h : Py.exn -> M A) : M A :=
  fun w =>
    match body w with
    | (t, Returned a) => (t, Returned a)
    | (t, Raised e) =>
        if Py.is_Exception e
        then let (t', r) := h e w in ((t ++ t')%list, r)
        else (t, Raised e)
    end.

Definition logger_info (msg : string) : M unit := emit (LogRecord INFO msg).
Definition logger_error (msg : string) : M unit := emit (LogRecord ERROR msg).

Definition datetime_now : M string := fun w => ([], Returned (now w)).

Definition os_environ_get (key : string) : M (option string) :=
  fun w => ([], Returned (environ w key)).

(** [bot.send_message(chat_id=..., text=...)]: the call is made, then it
    returns or raises as the platform decides. *)
Definition send_message (chat_id : Z) (text : string) : M unit :=
  fun w =>
    ([SendMessage chat_id text],
     match send_raises w chat_id text with
     | None => Returned tt
     | Some e => Raised e
     end).

(** [message.reply_text(text)]: a send to the chat of the message. *)
Definition reply_text (m : Message.t) (text : string) : M unit :=
  send_message (Chat.id (Message.chat m)) text.

(** Reading an attribute of [None]. *)
Definition NoneType_has_no (attr : string) : Py.exn :=
  Py.mkExn Py.AttributeError
    ("'NoneType' object has no attribute '" ++ attr ++ "'").

(** ** The callbacks of [bot.py] *)

Definition start_text : string :=
  "Hi! I'm a bot that tracks when users leave groups. " ++
  "Add me to a group and I'll message users who leave.".

Definition help_text : string :=
  "Commands:" ++ Py.nl ++
  "/start - Start the bot" ++ Py.nl ++
  "/help - Show this help message" ++ Py.nl ++ Py.nl ++
  "Add me to a group and I'll automatically message users who leave.".

(** [start]: [await update.message.reply_text(...)]. *)
Definition start (update : Update.t) (context : Context.t) : M unit :=
  match Update.message update with
  | Some m => reply_text m start_text
  | None => raise (NoneType_has_no "reply_text")
  end.

(** [help_command]: [await update.message.reply_text(...)]. *)
Definition help_command (update : Update.t) (context : Context.t) : M unit :=
  match Update.message update with
  | Some m => reply_text m help_text
  | None => raise (NoneType_has_no "reply_text")
  end.

(** The f-strings of [handle_member_left]. *)
Definition removed_entry (chat : Chat.t) : string :=
  "Bot was removed from " ++ Py.str_opt (Chat.title chat) ++
  " (" ++ Py.str_int (Chat.id chat) ++ ")".

Definition departure_entry (left_user : User.t) (chat : Chat.t)
    (stamp : string) : string :=
  "User " ++ User.full_name left_user ++
  " (ID: " ++ Py.str_int (User.id left_user) ++ ") left " ++
  "group " ++ Py.str_opt (Chat.title chat) ++
  " (ID: " ++ Py.str_int (Chat.id chat) ++ ") at " ++ stamp.

Definition farewell_text (left_user : User.t) (chat : Chat.t) : string :=
  "Hi " ++ User.first_name left_user ++
  ", we noticed you left " ++ Py.str_opt (Chat.title chat) ++ ". " ++
  "We hope you enjoyed your time in the group! " ++
  "If you have any feedback, please let us know.".

Definition sent_entry (left_user : User.t) : string :=
  "Sent farewell message to " ++ User.full_name left_user ++
  " (" ++ Py.str_int (User.id left_user) ++ ")".

Definition failed_entry (left_user : User.t) (e : Py.exn) : string :=
  "Could not send message to " ++ User.full_name left_user ++
  ": " ++ Py.exc_str e.

(** The body of [handle_member_left] once [left_user] and [chat] are bound. *)
Definition member_left (left_user : User.t) (chat : Chat.t)
    (context : Context.t) : M unit :=
  if User.id left_user =? Bot.id (Context.bot context)
  then logger_info (removed_entry chat)
  else
    stamp <- datetime_now ;;
    logger_info (departure_entry left_user chat stamp) ;;
    try_except_Exception
      (send_message (User.id left_user) (farewell_text left_user chat) ;;
       logger_info (sent_entry left_user))
      (fun e => logger_error (failed_entry left_user e)).

(** [handle_member_left]: nothing unless the update has a message with a
    left member; [chat.title] on a missing chat would raise. *)
Definition handle_member_left (update : Update.t) (context : Context.t)
    : M unit :=
  match Update.message update with
  | Some m =>
      match Message.left_chat_member m with
      | Some left_user =>
          match Update.effective_chat update with
          | Some chat => member_left left_user chat context
          | None => raise (NoneType_has_no "title")
          end
      | None => ret tt
      end
  | None => ret tt
  end.

(** ** Start-up: the module body and [main] *)

Section Startup.

(** The builtin [int] on a [str]: the number, or the [ValueError] it
    raises. *)
Variable int_str : string -> outcome Z.

(** The module-level names [main] reads. [TOKEN] is a non-empty string
    once the module body has passed its check. *)
Record Globals : Type := mkGlobals
  { TOKEN : string; PORT : Z; WEBHOOK_URL : option string }.

Definition no_token : Py.exn :=
  Py.mkExn Py.ValueError "No TELEGRAM_TOKEN found in environment variables".

(** [int(os.environ.get("PORT", 8443))]. *)
Definition read_PORT : M Z :=
  p <- os_environ_get "PORT" ;;
  match p with
  | Some s => fun _ => ([], int_str s)
  | None => ret 8443
  end.

(** [port] is the value of [PORT]: what [int] makes of [PORT], and 8443 without [PORT]. *)
Definition port_is (w : World) (port : Z) : Prop :=
  match environ w "PORT" with
  | Some s => int_str s = Returned port
  | None => port = 8443
  end.

(** The module body, down to the definitions of the callbacks.
    [if not TOKEN] lets a non-empty string through. *)
Definition module_body : M Globals :=
  emit BasicConfig ;;
  token <- os_environ_get "TELEGRAM_TOKEN" ;;
  match token with
  | Some (String c s) =>
      port <- read_PORT ;;
      url <- os_environ_get "WEBHOOK_URL" ;;
      ret (mkGlobals (String c s) port url)
  | _ => raise no_token
  end.

(** [main]. The two [run_...] calls return when the bot is stopped. *)
Definition main (g : Globals) : M unit :=
  emit (BuildApplication (TOKEN g)) ;;
  emit (AddHandler (CommandHandler "start" "start")) ;;
  emit (AddHandler (CommandHandler "help" "help_command")) ;;
  emit (AddHandler (MessageHandler_LEFT_CHAT_MEMBER "handle_member_left")) ;;
  if Py.truthy (WEBHOOK_URL g)
  then
    emit (RunWebhook "0.0.0.0" (PORT g) (TOKEN g)
            (Py.str_opt (WEBHOOK_URL g) ++ "/" ++ TOKEN g)) ;;
    logger_info ("Bot started with webhook on port " ++ Py.str_int (PORT g))
  else
    emit RunPolling ;;
    logger_info "Bot started with polling".

(** Running [bot.py] as a script: the module body, then [main()]. *)
Definition program : M unit :=
  g <- module_body ;;
  main g.

End Startup.

(** A decimal literal: an optional sign and one or more ASCII digits. The
    builtin [int] accepts these (and more) and gives their value. *)
Definition digit_value (c : ascii) : option Z :=
  let n := Z.of_nat (nat_of_ascii c) in
  if (48 <=? n) && (n <=? 57) then Some (n - 48) else None.

Fixpoint digits_value (acc : Z) (s : string) : option Z :=
  match s with
  | EmptyString => Some acc
  | String c s' =>
      match digit_value c with
      | Some d => digits_value (10 * acc + d) s'
      | None => None
      end
  end.

Definition invalid_literal (s : string) : Py.exn :=
  Py.mkExn Py.ValueError
    ("invalid literal for int() with base 10: '" ++ s ++ "'").

Definition decimal_int (s : string) : outcome Z :=
  let body sign d :=
    match d with
    | EmptyString => Raised (invalid_literal s)
    | _ => match digits_value 0 d with
           | Some n => Returned (sign * n)
           | None => Raised (invalid_literal s)
           end
    end in
  match s with
  | String "-"%char d => body (-1) d
  | String "+"%char d => body 1 d
  | _ => body 1 s
  end.

(** ** Reading traces *)

Definition is_log (ev : event) : bool :=
  match ev with LogRecord _ _ => true | _ => false end.

Definition is_send (ev : event) : bool :=
  match ev with SendMessage _ _ => true | _ => false end.

(** The two ways [main] runs the application. *)
Definition is_run (ev : event) : bool :=
  match ev with
  | RunWebhook _ _ _ _ | RunPolling => true
  | _ => false
  end.

Definition log_entries (t : list event) : list event := filter is_log t.
Definition sends (t : list event) : list event := filter is_send t.

(** The actions that come before the first send. *)
Fixpoint before_send (t : list event) : list event :=
  match t with
  | [] => []
  | ev :: t' => if is_send ev then [] else ev :: before_send t'
  end.

(** The actions that come after the first send. *)
Fixpoint after_send (t : list event) : list event :=
  match t with
  | [] => []
  | ev :: t' => if is_send ev then t' else after_send t'
  end.

(** [sub] occurs in [s]. *)
Definition Contains (sub s : string) : Prop :=
  exists pre post, s = pre ++ sub ++ post.

(** ** The example of the specification

    Alice (42) leaves the chat "Book Club" (555); the bot is user 7. *)

Definition alice : User.t := User.mk 42 "Alice" None.
Definition book_club : Chat.t := Chat.mk 555 (Some "Book Club").
Definition the_bot : Context.t := Context.mk (Bot.mk 7).

Definition alice_leaves : Update.t :=
  Update.mk (Some (Message.mk book_club (Some alice))).
Definition bot_removed : Update.t :=
  Update.mk (Some (Message.mk book_club (Some (User.mk 7 "Farewell" None)))).
Definition plain_message : Update.t :=
  Update.mk (Some (Message.mk book_club None)).
Definition edited_command : Update.t := Update.mk None.

Definition no_environ : string -> option string := fun _ => None.

(** A platform that accepts every send. *)
Definition accepting : World :=
  mkWorld no_environ "2024-05-01 10:30:00.000000" (fun _ _ => None).

(** A platform that refuses every send: the user never talked to the bot. *)
Definition forbidden : Py.exn :=
  Py.mkExn (Py.ExceptionSubclass "Forbidden")
    "Forbidden: bot can't initiate conversation with a user".

Definition refusing : World :=
  mkWorld no_environ "2024-05-01 10:30:00.000000" (fun _ _ => Some forbidden).

(** Process environments. *)
Definition environ_of (l : list (string * string)) : string -> option string :=
  fun key =>
    match find (fun kv => String.eqb (fst kv) key) l with
    | Some kv => Some (snd kv)
    | None => None
    end.

Definition with_environ (l : list (string * string)) : World :=
  mkWorld (environ_of l) "2024-05-01 10:30:00.000000" (fun _ _ => None).

(** A send that is cut short: the task of the callback is cancelled while
    it waits for the platform. *)
Definition cancelled : Py.exn :=
  Py.mkExn (Py.BaseExceptionOnly "CancelledError") "".

Definition cancelling : World :=
  mkWorld no_environ "2024-05-01 10:30:00.000000" (fun _ _ => Some cancelled).

(** ** More on traces *)

Definition is_registration (ev : event) : bool :=
  match ev with AddHandler _ => true | _ => false end.

Definition is_error_record (ev : event) : bool :=
  match ev with LogRecord ERROR _ => true | _ => false end.

(** The actions that come before the application is run. *)
Fixpoint before_run (t : list event) : list event :=
  match t with
  | [] => []
  | ev :: t' => if is_run ev then [] else ev :: before_run t'
  end.

(** The member an update reports as having left:
    [update.message and update.message.left_chat_member]. *)
Definition left_member (update : Update.t) : option (Message.t * User.t) :=
  match Update.message update with
  | Some m =>
      match Message.left_chat_member m with
      | Some left_user => Some (m, left_user)
      | None => None
      end
  | None => None
  end.


(** Every run of [handle_member_left] is one of five: nothing to do, the
    bot removed, the farewell sent, the send refused and recorded, the send
    cut short by an exception that is not caught. *)
Inductive departure_run (w : World) (update : Update.t) (context : Context.t)
  : list event * outcome unit -> Prop :=
| run_noop :
    left_member update = None ->
    departure_run w update context ([], Returned tt)
| run_bot m left_user :
    left_member update = Some (m, left_user) ->
    User.id left_user = Bot.id (Context.bot context) ->
    departure_run w update context
      ([LogRecord INFO (removed_entry (Message.chat m))], Returned tt)
| run_sent m left_user :
    left_member update = Some (m, left_user) ->
    User.id left_user <> Bot.id (Context.bot context) ->
    send_raises w (User.id left_user)
      (farewell_text left_user (Message.chat m)) = None ->
    departure_run w update context
      ([LogRecord INFO (departure_entry left_user (Message.chat m) (now w));
        SendMessage (User.id left_user)
          (farewell_text left_user (Message.chat m));
        LogRecord INFO (sent_entry left_user)], Returned tt)
| run_refused m left_user e :
    left_member update = Some (m, left_user) ->
    User.id left_user <> Bot.id (Context.bot context) ->
    send_raises w (User.id left_user)
      (farewell_text left_user (Message.chat m)) = Some e ->
    Py.is_Exception e = true ->
    departure_run w update context
      ([LogRecord INFO (departure_entry left_user (Message.chat m) (now w));
        SendMessage (User.id left_user)
          (farewell_text left_user (Message.chat m));
        LogRecord ERROR (failed_entry left_user e)], Returned tt)
| run_escaped m left_user e :
    left_member update = Some (m, left_user) ->
    User.id left_user <> Bot.id (Context.bot context) ->
    send_raises w (User.id left_user)
      (farewell_text left_user (Message.chat m)) = Some e ->
    Py.is_Exception e = false ->
    departure_run w update context
      ([LogRecord INFO (departure_entry left_user (Message.chat m) (now w));
        SendMessage (User.id left_user)
          (farewell_text left_user (Message.chat m))], Raised e).

(** ** Lemmas on strings and on the monad *)

Lemma append_assoc (a b c : string) : (a ++ b) ++ c = a ++ b ++ c.
Proof.
  induction a as [|x a IH]; simpl; [reflexivity | now rewrite IH].
Qed.

Lemma append_nil_r (a : string) : a ++ "" = a.
Proof.
  induction a as [|x a IH]; simpl; [reflexivity | now rewrite IH].
Qed.

Lemma Contains_refl (x : string) : Contains x x.
Proof. exists "", "". simpl. now rewrite append_nil_r. Qed.

Lemma Contains_prefix (x r : string) : Contains x (x ++ r).
Proof. now exists "", r. Qed.

Lemma Contains_skip (x p r : string) : Contains x r -> Contains x (p ++ r).
Proof.
  intros (pre & post & ->). exists (p ++ pre), post.
  now rewrite append_assoc.
Qed.

(** Finds a piece of an f-string among the pieces appended to make it. *)
Ltac interpolated :=
  repeat first
    [ apply Contains_prefix | apply Contains_refl | apply Contains_skip ].

Example str_int_42 : Py.str_int 42 = "42".
Proof. reflexivity. Qed.

Example str_int_supergroup : Py.str_int (-1001234) = "-1001234".
Proof. reflexivity. Qed.

Example str_int_0 : Py.str_int 0 = "0".
Proof. reflexivity. Qed.

Example full_name_two_parts :
  User.full_name (User.mk 1 "Ada" (Some "Lovelace")) = "Ada Lovelace".
Proof. reflexivity. Qed.

Example decimal_int_8080 : decimal_int "8080" = Returned 8080.
Proof. reflexivity. Qed.

Example decimal_int_word :
  decimal_int "http" = Raised (invalid_literal "http").
Proof. reflexivity. Qed.

(** The departure callback on a left member is [member_left] on that member
    and the chat of the message. *)
Lemma handle_member_left_some w update context m left_user :
  Update.message update = Some m ->
  Message.left_chat_member m = Some left_user ->
  handle_member_left update context w =
  member_left left_user (Message.chat m) context w.
Proof.
  intros Hm Hl. unfold handle_member_left, Update.effective_chat.
  now rewrite Hm, Hl.
Qed.

(** The three runs of [member_left]. *)
Lemma member_left_bot w left_user chat context :
  User.id left_user = Bot.id (Context.bot context) ->
  member_left left_user chat context w =
  ([LogRecord INFO (removed_entry chat)], Returned tt).
Proof.
  intros H. unfold member_left. apply Z.eqb_eq in H. now rewrite H.
Qed.

Lemma member_left_sent w left_user chat context :
  User.id left_user <> Bot.id (Context.bot context) ->
  send_raises w (User.id left_user) (farewell_text left_user chat) = None ->
  member_left left_user chat context w =
  ([LogRecord INFO (departure_entry left_user chat (now w));
    SendMessage (User.id left_user) (farewell_text left_user chat);
    LogRecord INFO (sent_entry left_user)], Returned tt).
Proof.
  intros H Hs. unfold member_left. apply Z.eqb_neq in H. rewrite H.
  unfold bind, try_except_Exception, datetime_now, logger_info, emit,
    send_message.
  now rewrite Hs.
Qed.

Lemma member_left_raised w left_user chat context e :
  User.id left_user <> Bot.id (Context.bot context) ->
  send_raises w (User.id left_user) (farewell_text left_user chat) = Some e ->
  member_left left_user chat context w =
  if Py.is_Exception e
  then ([LogRecord INFO (departure_entry left_user chat (now w));
         SendMessage (User.id left_user) (farewell_text left_user chat);
         LogRecord ERROR (failed_entry left_user e)], Returned tt)
  else ([LogRecord INFO (departure_entry left_user chat (now w));
         SendMessage (User.id left_user) (farewell_text left_user chat)],
        Raised e).
Proof.
  intros H Hs. unfold member_left. apply Z.eqb_neq in H. rewrite H.
  unfold bind, try_except_Exception, datetime_now, logger_info, logger_error,
    emit, send_message.
  rewrite Hs. now destruct (Py.is_Exception e).
Qed.

(** ** The departure callback *)

(** C1: when a member other than the bot has left, the actions before the
    send are exactly one log record, and exactly one send is attempted: to
    the departing user, with a text that contains the user's first name and
    the chat's title (as the f-string renders it). This holds whether the
    send then succeeds or raises. *)
Theorem departure_logs_then_sends_once w update context m left_user :
  Update.message update = Some m ->
  Message.left_chat_member m = Some left_user ->
  User.id left_user <> Bot.id (Context.bot context) ->
  let t := fst (handle_member_left update context w) in
  let text := farewell_text left_user (Message.chat m) in
  before_send t =
    [LogRecord INFO (departure_entry left_user (Message.chat m) (now w))] /\
  sends t = [SendMessage (User.id left_user) text] /\
  Contains (User.first_name left_user) text /\
  Contains (Py.str_opt (Chat.title (Message.chat m))) text.
Proof.
  intros Hm Hl Hid t text. subst t.
  rewrite (handle_member_left_some _ _ _ _ _ Hm Hl).
  assert (Htrace :
    before_send (fst (member_left left_user (Message.chat m) context w)) =
      [LogRecord INFO (departure_entry left_user (Message.chat m) (now w))] /\
    sends (fst (member_left left_user (Message.chat m) context w)) =
      [SendMessage (User.id left_user) text]).
  { destruct (send_raises w (User.id left_user) text) as [e|] eqn:Hs.
    - rewrite (member_left_raised _ _ _ _ _ Hid Hs).
      destruct (Py.is_Exception e); split; reflexivity.
    - rewrite (member_left_sent _ _ _ _ Hid Hs). split; reflexivity. }
  destruct Htrace as [Hb Hsd].
  repeat split; try assumption; subst text; unfold farewell_text; interpolated.
Qed.

Lemma departure_logs_then_sends_once_witness :
  let t := fst (handle_member_left alice_leaves the_bot refusing) in
  before_send t =
    [LogRecord INFO
       "User Alice (ID: 42) left group Book Club (ID: 555) at 2024-05-01 10:30:00.000000"] /\
  sends t = [SendMessage 42 (farewell_text alice book_club)] /\
  Contains "Alice" (farewell_text alice book_club) /\
  Contains "Book Club" (farewell_text alice book_club).
Proof.
  apply (departure_logs_then_sends_once refusing alice_leaves the_bot
           (Message.mk book_club (Some alice)) alice);
    [reflexivity | reflexivity | simpl; lia].
Defined.

(** C2: when the send raises an exception (an instance of [Exception], as
    every error of the bot API is), the callback returns normally; its whole
    trace is the departure record, the one send and one error record, so the
    send is not tried again and nothing else is sent; the error record
    contains the user's full name and the text of the exception. *)
Theorem failed_send_is_logged_and_swallowed w update context m left_user e :
  Update.message update = Some m ->
  Message.left_chat_member m = Some left_user ->
  User.id left_user <> Bot.id (Context.bot context) ->
  send_raises w (User.id left_user)
    (farewell_text left_user (Message.chat m)) = Some e ->
  Py.is_Exception e = true ->
  handle_member_left update context w =
    ([LogRecord INFO (departure_entry left_user (Message.chat m) (now w));
      SendMessage (User.id left_user)
        (farewell_text left_user (Message.chat m));
      LogRecord ERROR (failed_entry left_user e)], Returned tt) /\
  Contains (User.full_name left_user) (failed_entry left_user e) /\
  Contains (Py.exc_str e) (failed_entry left_user e).
Proof.
  intros Hm Hl Hid Hs He.
  rewrite (handle_member_left_some _ _ _ _ _ Hm Hl).
  rewrite (member_left_raised _ _ _ _ _ Hid Hs), He.
  repeat split; unfold failed_entry; interpolated.
Qed.

Lemma failed_send_is_logged_and_swallowed_witness :
  handle_member_left alice_leaves the_bot refusing =
    ([LogRecord INFO (departure_entry alice book_club (now refusing));
      SendMessage 42 (farewell_text alice book_club);
      LogRecord ERROR
        "Could not send message to Alice: Forbidden: bot can't initiate conversation with a user"],
     Returned tt) /\
  Contains "Alice" (failed_entry alice forbidden) /\
  Contains "Forbidden: bot can't initiate conversation with a user"
    (failed_entry alice forbidden).
Proof.
  apply (failed_send_is_logged_and_swallowed refusing alice_leaves the_bot
           (Message.mk book_club (Some alice)) alice forbidden);
    [reflexivity | reflexivity | simpl; lia | reflexivity | reflexivity].
Defined.

(** An exception that is not an [Exception] (a cancelled task, say) is not
    caught: it leaves the callback, after the departure record and the
    send. *)
Lemma base_exception_escapes w update context m left_user e :
  Update.message update = Some m ->
  Message.left_chat_member m = Some left_user ->
  User.id left_user <> Bot.id (Context.bot context) ->
  send_raises w (User.id left_user)
    (farewell_text left_user (Message.chat m)) = Some e ->
  Py.is_Exception e = false ->
  snd (handle_member_left update context w) = Raised e.
Proof.
  intros Hm Hl Hid Hs He.
  rewrite (handle_member_left_some _ _ _ _ _ Hm Hl).
  now rewrite (member_left_raised _ _ _ _ _ Hid Hs), He.
Qed.

(** C3: on an update without a left member (no message, or a message whose
    [left_chat_member] is [None]) the callback does nothing: no call of the
    API, no log record, and it returns. *)
Theorem no_left_member_is_noop w update context :
  (forall m, Update.message update = Some m ->
             Message.left_chat_member m = None) ->
  handle_member_left update context w = ([], Returned tt).
Proof.
  intros H. unfold handle_member_left.
  destruct (Update.message update) as [m|]; [|reflexivity].
  now rewrite (H m eq_refl).
Qed.

Lemma no_left_member_is_noop_witness :
  handle_member_left plain_message the_bot accepting = ([], Returned tt) /\
  handle_member_left edited_command the_bot accepting = ([], Returned tt).
Proof.
  split.
  - apply (no_left_member_is_noop accepting plain_message the_bot).
    intros m H. injection H as <-. reflexivity.
  - apply (no_left_member_is_noop accepting edited_command the_bot).
    intros m H. discriminate H.
Defined.

(** C4: when the member that left is the bot itself, the callback writes
    exactly one log record, saying that the bot was removed, sends nothing
    and returns. *)
Theorem bot_removed_logs_and_stops w update context m left_user :
  Update.message update = Some m ->
  Message.left_chat_member m = Some left_user ->
  User.id left_user = Bot.id (Context.bot context) ->
  handle_member_left update context w =
    ([LogRecord INFO (removed_entry (Message.chat m))], Returned tt) /\
  sends (fst (handle_member_left update context w)) = [] /\
  Contains "Bot was removed" (removed_entry (Message.chat m)).
Proof.
  intros Hm Hl Hid.
  rewrite (handle_member_left_some _ _ _ _ _ Hm Hl).
  rewrite (member_left_bot _ _ _ _ Hid).
  repeat split. unfold removed_entry.
  change "Bot was removed from " with ("Bot was removed" ++ " from ").
  rewrite append_assoc. interpolated.
Qed.

Lemma bot_removed_logs_and_stops_witness :
  handle_member_left bot_removed the_bot accepting =
    ([LogRecord INFO "Bot was removed from Book Club (555)"], Returned tt) /\
  sends (fst (handle_member_left bot_removed the_bot accepting)) = [] /\
  Contains "Bot was removed" (removed_entry book_club).
Proof.
  apply (bot_removed_logs_and_stops accepting bot_removed the_bot
           (Message.mk book_club (Some (User.mk 7 "Farewell" None)))
           (User.mk 7 "Farewell" None));
    reflexivity.
Defined.

(** C5: when a member other than the bot has left, the log record written
    before the send contains the user's full name, the user's identifier,
    the chat's title, the chat's identifier and the time of the clock. *)
Theorem departure_entry_contents w update context m left_user :
  Update.message update = Some m ->
  Message.left_chat_member m = Some left_user ->
  User.id left_user <> Bot.id (Context.bot context) ->
  let entry := departure_entry left_user (Message.chat m) (now w) in
  before_send (fst (handle_member_left update context w)) =
    [LogRecord INFO entry] /\
  Contains (User.full_name left_user) entry /\
  Contains (Py.str_int (User.id left_user)) entry /\
  Contains (Py.str_opt (Chat.title (Message.chat m))) entry /\
  Contains (Py.str_int (Chat.id (Message.chat m))) entry /\
  Contains (now w) entry.
Proof.
  intros Hm Hl Hid entry. split.
  - rewrite (handle_member_left_some _ _ _ _ _ Hm Hl).
    destruct (send_raises w (User.id left_user)
                (farewell_text left_user (Message.chat m))) as [e|] eqn:Hs.
    + rewrite (member_left_raised _ _ _ _ _ Hid Hs).
      now destruct (Py.is_Exception e).
    + now rewrite (member_left_sent _ _ _ _ Hid Hs).
  - subst entry. unfold departure_entry. repeat split; interpolated.
Qed.

Lemma departure_entry_contents_witness :
  let entry :=
    "User Alice (ID: 42) left group Book Club (ID: 555) at 2024-05-01 10:30:00.000000" in
  before_send (fst (handle_member_left alice_leaves the_bot accepting)) =
    [LogRecord INFO entry] /\
  Contains "Alice" entry /\ Contains "42" entry /\
  Contains "Book Club" entry /\ Contains "555" entry /\
  Contains "2024-05-01 10:30:00.000000" entry.
Proof.
  apply (departure_entry_contents accepting alice_leaves the_bot
           (Message.mk book_club (Some alice)) alice);
    [reflexivity | reflexivity | simpl; lia].
Defined.

(** C9: when a member other than the bot has left and the send succeeds, the
    callback writes a second info record after the send, which contains the
    user's full name and identifier: two log records in all. *)
Theorem successful_send_is_confirmed w update context m left_user :
  Update.message update = Some m ->
  Message.left_chat_member m = Some left_user ->
  User.id left_user <> Bot.id (Context.bot context) ->
  send_raises w (User.id left_user)
    (farewell_text left_user (Message.chat m)) = None ->
  let t := fst (handle_member_left update context w) in
  after_send t = [LogRecord INFO (sent_entry left_user)] /\
  log_entries t =
    [LogRecord INFO (departure_entry left_user (Message.chat m) (now w));
     LogRecord INFO (sent_entry left_user)] /\
  snd (handle_member_left update context w) = Returned tt /\
  Contains (User.full_name left_user) (sent_entry left_user) /\
  Contains (Py.str_int (User.id left_user)) (sent_entry left_user).
Proof.
  intros Hm Hl Hid Hs t. subst t.
  rewrite (handle_member_left_some _ _ _ _ _ Hm Hl).
  rewrite (member_left_sent _ _ _ _ Hid Hs).
  repeat split; unfold sent_entry; interpolated.
Qed.

Lemma successful_send_is_confirmed_witness :
  let t := fst (handle_member_left alice_leaves the_bot accepting) in
  after_send t = [LogRecord INFO "Sent farewell message to Alice (42)"] /\
  log_entries t =
    [LogRecord INFO (departure_entry alice book_club (now accepting));
     LogRecord INFO (sent_entry alice)] /\
  snd (handle_member_left alice_leaves the_bot accepting) = Returned tt /\
  Contains "Alice" (sent_entry alice) /\
  Contains "42" (sent_entry alice).
Proof.
  apply (successful_send_is_confirmed accepting alice_leaves the_bot
           (Message.mk book_club (Some alice)) alice);
    [reflexivity | reflexivity | simpl; lia | reflexivity].
Defined.

(** ** The command callbacks *)

(** On an update that carries a message, [start] attempts exactly one send,
    to the chat of that message, with the fixed text. *)
Lemma start_replies_once w update context m :
  Update.message update = Some m ->
  fst (start update context w) =
  [SendMessage (Chat.id (Message.chat m)) start_text].
Proof. intros H. unfold start. now rewrite H. Qed.

Lemma help_command_replies_once w update context m :
  Update.message update = Some m ->
  fst (help_command update context w) =
  [SendMessage (Chat.id (Message.chat m)) help_text].
Proof. intros H. unfold help_command. now rewrite H. Qed.

(** C6, at an update without a message (the command arrived as an edited
    message or as a channel post, which the command handler of the framework
    also passes on): both callbacks raise [AttributeError] and send no
    reply. *)
Theorem command_without_message_raises w context :
  start edited_command context w =
    ([], Raised (NoneType_has_no "reply_text")) /\
  help_command edited_command context w =
    ([], Raised (NoneType_has_no "reply_text")).
Proof. split; reflexivity. Qed.

(** ** Start-up *)

Section StartupFacts.

Variable int_str : string -> outcome Z.

Lemma module_body_ok w tok port :
  environ w "TELEGRAM_TOKEN" = Some tok -> tok <> "" ->
  port_is int_str w port ->
  module_body int_str w =
  ([BasicConfig], Returned (mkGlobals tok port (environ w "WEBHOOK_URL"))).
Proof.
  intros Ht Hne Hp. unfold module_body, bind, emit, os_environ_get.
  rewrite Ht. destruct tok as [|c tok]; [congruence|].
  unfold read_PORT, bind, os_environ_get, port_is in *.
  destruct (environ w "PORT") as [s|].
  - now rewrite Hp.
  - now subst port.
Qed.

Lemma module_body_no_token w :
  Py.truthy (environ w "TELEGRAM_TOKEN") = false ->
  module_body int_str w = ([BasicConfig], Raised no_token).
Proof.
  intros Ht. unfold module_body, bind, emit, os_environ_get.
  destruct (environ w "TELEGRAM_TOKEN") as [[|c tok]|];
    [reflexivity | discriminate Ht | reflexivity].
Qed.

Lemma module_body_bad_port w tok s e :
  environ w "TELEGRAM_TOKEN" = Some tok -> tok <> "" ->
  environ w "PORT" = Some s -> int_str s = Raised e ->
  module_body int_str w = ([BasicConfig], Raised e).
Proof.
  intros Ht Hne Hp He. unfold module_body, bind, emit, os_environ_get.
  rewrite Ht. destruct tok as [|c tok]; [congruence|].
  unfold read_PORT, bind, os_environ_get. now rewrite Hp, He.
Qed.

(** Before it runs the application, [main] builds it with the token and
    registers the three handlers; the record of the start is written when
    the run call has returned. *)
Lemma program_trace w tok port :
  environ w "TELEGRAM_TOKEN" = Some tok -> tok <> "" ->
  port_is int_str w port ->
  fst (program int_str w) =
    ([BasicConfig; BuildApplication tok;
      AddHandler (CommandHandler "start" "start");
      AddHandler (CommandHandler "help" "help_command");
      AddHandler (MessageHandler_LEFT_CHAT_MEMBER "handle_member_left")] ++
     match environ w "WEBHOOK_URL" with
     | Some (String c u) =>
         [RunWebhook "0.0.0.0" port tok (String c u ++ "/" ++ tok);
          LogRecord INFO
            ("Bot started with webhook on port " ++ Py.str_int port)]
     | _ => [RunPolling; LogRecord INFO "Bot started with polling"]
     end)%list.
Proof.
  intros Ht Hne Hp. unfold program, bind.
  rewrite (module_body_ok w tok port Ht Hne Hp).
  now destruct (environ w "WEBHOOK_URL") as [[|c u]|].
Qed.

(** C7: with a token and a port that [int] accepts, start-up runs the
    application in exactly one way, decided by [WEBHOOK_URL] alone: by the
    webhook when it is set to a non-empty value, listening on the
    configured port (8443 without [PORT]) with the token as URL path and as
    last part of the callback URL; by polling when it is not set (or set to
    the empty string). *)
Theorem mode_selection w tok port :
  environ w "TELEGRAM_TOKEN" = Some tok -> tok <> "" ->
  port_is int_str w port ->
  snd (program int_str w) = Returned tt /\
  filter is_run (fst (program int_str w)) =
    match environ w "WEBHOOK_URL" with
    | Some (String c u) =>
        [RunWebhook "0.0.0.0" port tok (String c u ++ "/" ++ tok)]
    | _ => [RunPolling]
    end.
Proof.
  intros Ht Hne Hp. unfold program, bind.
  rewrite (module_body_ok w tok port Ht Hne Hp).
  destruct (environ w "WEBHOOK_URL") as [[|c u]|]; split; reflexivity.
Qed.

(** C8: without [TELEGRAM_TOKEN] the program raises [ValueError] right
    after the logging set-up: no application is built, no handler is
    registered and the application is not run. *)
Theorem missing_token_aborts w :
  environ w "TELEGRAM_TOKEN" = None ->
  program int_str w = ([BasicConfig], Raised no_token).
Proof.
  intros Ht. unfold program, bind.
  rewrite module_body_no_token; [reflexivity | now rewrite Ht].
Qed.

(** C10: with a token, a [PORT] on which [int] raises ends the program
    with that exception right after the logging set-up, whatever
    [WEBHOOK_URL] is, so also when polling would have been chosen and the
    port not used. *)
Theorem bad_port_aborts w tok s e :
  environ w "TELEGRAM_TOKEN" = Some tok -> tok <> "" ->
  environ w "PORT" = Some s -> int_str s = Raised e ->
  program int_str w = ([BasicConfig], Raised e).
Proof.
  intros Ht Hne Hp He. unfold program, bind.
  now rewrite (module_body_bad_port w tok s e Ht Hne Hp He).
Qed.

End StartupFacts.

Lemma mode_selection_witness :
  (snd (program decimal_int (with_environ [("TELEGRAM_TOKEN", "123:abc")]))
     = Returned tt /\
   filter is_run
     (fst (program decimal_int (with_environ [("TELEGRAM_TOKEN", "123:abc")])))
     = [RunPolling]) /\
  (snd (program decimal_int
          (with_environ [("TELEGRAM_TOKEN", "123:abc"); ("PORT", "8080");
                         ("WEBHOOK_URL", "https://bot.example.org")]))
     = Returned tt /\
   filter is_run
     (fst (program decimal_int
             (with_environ [("TELEGRAM_TOKEN", "123:abc"); ("PORT", "8080");
                            ("WEBHOOK_URL", "https://bot.example.org")])))
     = [RunWebhook "0.0.0.0" 8080 "123:abc"
          "https://bot.example.org/123:abc"]).
Proof.
  split.
  - apply (mode_selection decimal_int
             (with_environ [("TELEGRAM_TOKEN", "123:abc")]) "123:abc" 8443);
      [reflexivity | discriminate | reflexivity].
  - apply (mode_selection decimal_int
             (with_environ [("TELEGRAM_TOKEN", "123:abc"); ("PORT", "8080");
                            ("WEBHOOK_URL", "https://bot.example.org")])
             "123:abc" 8080);
      [reflexivity | discriminate | reflexivity].
Defined.

Lemma missing_token_aborts_witness :
  program decimal_int (with_environ [("PORT", "8080")]) =
  ([BasicConfig], Raised no_token).
Proof.
  apply (missing_token_aborts decimal_int (with_environ [("PORT", "8080")])).
  reflexivity.
Defined.

Lemma bad_port_aborts_witness :
  environ (with_environ [("TELEGRAM_TOKEN", "123:abc"); ("PORT", "http")])
    "WEBHOOK_URL" = None /\
  program decimal_int
    (with_environ [("TELEGRAM_TOKEN", "123:abc"); ("PORT", "http")]) =
  ([BasicConfig], Raised (invalid_literal "http")).
Proof.
  split; [reflexivity|].
  apply (bad_port_aborts decimal_int
           (with_environ [("TELEGRAM_TOKEN", "123:abc"); ("PORT", "http")])
           "123:abc" "http" (invalid_literal "http"));
    [reflexivity | discriminate | reflexivity | reflexivity].
Defined.

(** ** Further properties of the departure callback *)

Lemma handle_member_left_run w update context :
  departure_run w update context (handle_member_left update context w).
Proof.
  destruct (left_member update) as [[m left_user]|] eqn:Hlm.
  - assert (Hm : Update.message update = Some m /\
                 Message.left_chat_member m = Some left_user).
    { unfold left_member in Hlm.
      destruct (Update.message update) as [m'|]; [|discriminate].
      destruct (Message.left_chat_member m') as [u|] eqn:Hu; [|discriminate].
      injection Hlm as -> ->. now split. }
    destruct Hm as [Hm Hl].
    rewrite (handle_member_left_some _ _ _ _ _ Hm Hl).
    destruct (Z.eq_dec (User.id left_user) (Bot.id (Context.bot context)))
      as [Hid|Hid].
    + rewrite (member_left_bot _ _ _ _ Hid). now apply run_bot with left_user.
    + destruct (send_raises w (User.id left_user)
                  (farewell_text left_user (Message.chat m))) as [e|] eqn:Hs.
      * rewrite (member_left_raised _ _ _ _ _ Hid Hs).
        destruct (Py.is_Exception e) eqn:He.
        -- now apply run_refused.
        -- now apply run_escaped.
      * rewrite (member_left_sent _ _ _ _ Hid Hs). now apply run_sent.
  - replace (handle_member_left update context w)
      with (@nil event, Returned tt).
    + now apply run_noop.
    + unfold left_member in Hlm. unfold handle_member_left.
      destruct (Update.message update) as [m|]; [|reflexivity].
      destruct (Message.left_chat_member m); [discriminate | reflexivity].
Qed.

(** X1: whatever the update and whatever the platform answers, one call of
    the departure callback makes at most one send and writes at most two
    log records. *)
Theorem departure_bounded w update context :
  (List.length (sends (fst (handle_member_left update context w))) <= 1)%nat /\
  (List.length (log_entries (fst (handle_member_left update context w))) <= 2)%nat.
Proof.
  destruct (handle_member_left_run w update context); simpl; lia.
Qed.

(** X2: every send of the departure callback is the farewell to the member
    that left, addressed to that member's identifier, and that member is
    not the bot: the callback never writes to the bot itself and never
    takes the address of a send from the chat. *)
Theorem departure_sends_only_farewell w update context chat_id text :
  In (SendMessage chat_id text) (fst (handle_member_left update context w)) ->
  exists m left_user,
    left_member update = Some (m, left_user) /\
    chat_id = User.id left_user /\
    chat_id <> Bot.id (Context.bot context) /\
    text = farewell_text left_user (Message.chat m).
Proof.
  intros Hin.
  destruct (handle_member_left_run w update context)
    as [Hn | m u Hl Hid | m u Hl Hid Hs | m u e Hl Hid Hs He
        | m u e Hl Hid Hs He];
    simpl in Hin;
    repeat (destruct Hin as [Hin|Hin]; try discriminate Hin);
    try contradiction;
    injection Hin as <- <-; exists m, u; repeat split; assumption.
Qed.

Lemma departure_sends_only_farewell_witness :
  exists m left_user,
    left_member alice_leaves = Some (m, left_user) /\
    42 = User.id left_user /\
    42 <> Bot.id (Context.bot the_bot) /\
    farewell_text alice book_club = farewell_text left_user (Message.chat m).
Proof.
  apply (departure_sends_only_farewell refusing alice_leaves the_bot 42
           (farewell_text alice book_club)).
  simpl. right. left. reflexivity.
Defined.

(** X3: an exception leaves the departure callback only if the send raised
    it and it is not an instance of [Exception]; the trace is then the
    departure record and the send, with neither the confirmation nor an
    error record. *)
Theorem departure_escape_is_uncaught_send w update context e :
  snd (handle_member_left update context w) = Raised e ->
  Py.is_Exception e = false /\
  exists m left_user,
    left_member update = Some (m, left_user) /\
    send_raises w (User.id left_user)
      (farewell_text left_user (Message.chat m)) = Some e /\
    fst (handle_member_left update context w) =
      [LogRecord INFO (departure_entry left_user (Message.chat m) (now w));
       SendMessage (User.id left_user)
         (farewell_text left_user (Message.chat m))].
Proof.
  intros Hr.
  destruct (handle_member_left_run w update context)
    as [Hn | m u Hl Hid | m u Hl Hid Hs | m u e' Hl Hid Hs He
        | m u e' Hl Hid Hs He];
    simpl in Hr; try discriminate Hr.
  injection Hr as ->. split; [assumption|].
  exists m, u. repeat split; assumption.
Qed.

Lemma departure_escape_is_uncaught_send_witness :
  Py.is_Exception cancelled = false /\
  exists m left_user,
    left_member alice_leaves = Some (m, left_user) /\
    send_raises cancelling (User.id left_user)
      (farewell_text left_user (Message.chat m)) = Some cancelled /\
    fst (handle_member_left alice_leaves the_bot cancelling) =
      [LogRecord INFO
         (departure_entry left_user (Message.chat m) (now cancelling));
       SendMessage (User.id left_user)
         (farewell_text left_user (Message.chat m))].
Proof.
  apply (departure_escape_is_uncaught_send cancelling alice_leaves the_bot
           cancelled).
  reflexivity.
Defined.

(** X4: the departure callback writes an error record only for a send that
    raised an [Exception]: the record is the one of that failure, it is the
    last action, and the callback returns. *)
Theorem error_record_only_for_failed_send w update context msg :
  In (LogRecord ERROR msg) (fst (handle_member_left update context w)) ->
  snd (handle_member_left update context w) = Returned tt /\
  exists m left_user e,
    left_member update = Some (m, left_user) /\
    send_raises w (User.id left_user)
      (farewell_text left_user (Message.chat m)) = Some e /\
    Py.is_Exception e = true /\
    msg = failed_entry left_user e /\
    after_send (fst (handle_member_left update context w)) =
      [LogRecord ERROR msg].
Proof.
  intros Hin.
  destruct (handle_member_left_run w update context)
    as [Hn | m u Hl Hid | m u Hl Hid Hs | m u e Hl Hid Hs He
        | m u e Hl Hid Hs He];
    simpl in Hin;
    repeat (destruct Hin as [Hin|Hin]; try discriminate Hin);
    try contradiction.
  injection Hin as <-. split; [reflexivity|].
  exists m, u, e. repeat split; assumption.
Qed.

Lemma error_record_only_for_failed_send_witness :
  snd (handle_member_left alice_leaves the_bot refusing) = Returned tt /\
  exists m left_user e,
    left_member alice_leaves = Some (m, left_user) /\
    send_raises refusing (User.id left_user)
      (farewell_text left_user (Message.chat m)) = Some e /\
    Py.is_Exception e = true /\
    failed_entry alice forbidden = failed_entry left_user e /\
    after_send (fst (handle_member_left alice_leaves the_bot refusing)) =
      [LogRecord ERROR (failed_entry alice forbidden)].
Proof.
  apply (error_record_only_for_failed_send refusing alice_leaves the_bot
           (failed_entry alice forbidden)).
  simpl. right. right. left. reflexivity.
Defined.

(** ** Further properties of the command callbacks *)

(** X5: the command callbacks do not guard their reply. When the platform
    refuses the reply, also with an [Exception] that the departure callback
    would have caught and recorded, the exception leaves the callback after
    the one send and nothing is logged. *)
Theorem command_reply_failure_propagates w update context m e e' :
  Update.message update = Some m ->
  send_raises w (Chat.id (Message.chat m)) start_text = Some e ->
  send_raises w (Chat.id (Message.chat m)) help_text = Some e' ->
  start update context w =
    ([SendMessage (Chat.id (Message.chat m)) start_text], Raised e) /\
  help_command update context w =
    ([SendMessage (Chat.id (Message.chat m)) help_text], Raised e').
Proof.
  intros Hm Hs Hh. unfold start, help_command, reply_text, send_message.
  now rewrite Hm, Hs, Hh.
Qed.

Lemma command_reply_failure_propagates_witness :
  start plain_message the_bot refusing =
    ([SendMessage 555 start_text], Raised forbidden) /\
  help_command plain_message the_bot refusing =
    ([SendMessage 555 help_text], Raised forbidden).
Proof.
  apply (command_reply_failure_propagates refusing plain_message the_bot
           (Message.mk book_club None) forbidden forbidden);
    reflexivity.
Defined.

(** ** Further properties of the start-up *)

Section StartupMore.

Variable int_str : string -> outcome Z.

(** X6: a [TELEGRAM_TOKEN] that is set to the empty string counts as no
    token: the program ends with the same [ValueError], whatever the other
    variables hold, before anything is built. *)
Theorem empty_token_aborts w :
  environ w "TELEGRAM_TOKEN" = Some "" ->
  program int_str w = ([BasicConfig], Raised no_token).
Proof.
  intros Ht. unfold program, bind.
  rewrite module_body_no_token; [reflexivity | now rewrite Ht].
Qed.





(** X10: without a webhook ([WEBHOOK_URL] missing or empty) the port is
    read and converted but not used: with a token and any port that [int]
    accepts, the program does the same actions, ending in polling. *)
Theorem polling_ignores_port w tok port :
  environ w "TELEGRAM_TOKEN" = Some tok -> tok <> "" ->
  port_is int_str w port ->
  Py.truthy (environ w "WEBHOOK_URL") = false ->
  program int_str w =
    ([BasicConfig; BuildApplication tok;
      AddHandler (CommandHandler "start" "start");
      AddHandler (CommandHandler "help" "help_command");
      AddHandler (MessageHandler_LEFT_CHAT_MEMBER "handle_member_left");
      RunPolling; LogRecord INFO "Bot started with polling"], Returned tt).
Proof.
  intros Ht Hne Hp Hw. unfold program, bind.
  rewrite (module_body_ok int_str w tok port Ht Hne Hp).
  unfold main, bind, emit, logger_info. simpl. now rewrite Hw.
Qed.

End StartupMore.

Lemma empty_token_aborts_witness :
  program decimal_int
    (with_environ [("TELEGRAM_TOKEN", ""); ("PORT", "http")]) =
  ([BasicConfig], Raised no_token).
Proof.
  apply (empty_token_aborts decimal_int
           (with_environ [("TELEGRAM_TOKEN", ""); ("PORT", "http")])).
  reflexivity.
Defined.



Lemma polling_ignores_port_witness :
  program decimal_int
    (with_environ [("TELEGRAM_TOKEN", "123:abc"); ("PORT", "9000");
                   ("WEBHOOK_URL", "")]) =
  ([BasicConfig; BuildApplication "123:abc";
    AddHandler (CommandHandler "start" "start");
    AddHandler (CommandHandler "help" "help_command");
    AddHandler (MessageHandler_LEFT_CHAT_MEMBER "handle_member_left");
    RunPolling; LogRecord INFO "Bot started with polling"], Returned tt).
Proof.
  apply (polling_ignores_port decimal_int
           (with_environ [("TELEGRAM_TOKEN", "123:abc"); ("PORT", "9000");
                          ("WEBHOOK_URL", "")]) "123:abc" 9000);
    [reflexivity | discriminate | reflexivity | reflexivity].
Defined.
